(** * The issue-resolution agent: driver ([agent.py]) and start-up ([main.py])

    A shallow embedding of [ResolveIssueAgent._run_async_impl] and of the
    [.env] loader of [main], with the properties of the specification that
    concern them.

    Python values are modelled by [pyval]; the session state and the process
    environment are finite maps with string keys; the asynchronous generator
    of the driver is a function from the session state to the list of steps
    it performs, the state it leaves and its outcome.

    Scope of the model. The agent runtime is a parameter: a stage is any
    function from the agent and the session state to the events it streams,
    the state it leaves and the exception that ends it, if any. A stage run
    comes to an end (a stage that hangs, hangs the driver and yields no
    envelope), and what it raises is an instance of [Exception], the class
    the driver's handler catches (a cancellation or an interrupt is not one
    and passes through the driver). The values in the session state are
    ones [json.dumps] serialises, so building an envelope does not raise,
    and an envelope is kept as the dictionary that [json.dumps] is given. *)

From Stdlib Require Import Ascii.
From stdpp Require Import gmap strings list fin_maps.

Set Warnings "-register-all".

(** ** Python strings

    A [str] is a [string]; a character is a code point below 256. *)
Module PyStr.

(** [s.startswith(p)] *)
Fixpoint startswith (s p : string) {struct p} : bool :=
  match p, s with
  | EmptyString, _ => true
  | String c p', String d s' => bool_decide (c = d) && startswith s' p'
  | String _ _, EmptyString => false
  end.

(** [sub in s]: [sub] occurs in [s] at some offset. *)
Fixpoint contains (sub s : string) : bool :=
  startswith s sub ||
  match s with
  | EmptyString => false
  | String _ s' => contains sub s'
  end.

(** [c.isspace()] for a code point below 256: the ASCII white space
    (tab, line feed, vertical tab, form feed, carriage return, space), the
    separators 0x1c to 0x1f, NEL (0x85) and the no-break space (0xa0). *)
Definition isspace (c : ascii) : bool :=
  let n := nat_of_ascii c in
  ((9 <=? n)%nat && (n <=? 13)%nat) || ((28 <=? n)%nat && (n <=? 32)%nat)
  || (n =? 133)%nat || (n =? 160)%nat.

(** [s.lstrip()] *)
Fixpoint lstrip (s : string) : string :=
  match s with
  | EmptyString => EmptyString
  | String c s' => if isspace c then lstrip s' else s
  end.

(** [s.rstrip()] *)
Fixpoint rstrip (s : string) : string :=
  match s with
  | EmptyString => EmptyString
  | String c s' =>
      match rstrip s' with
      | EmptyString => if isspace c then EmptyString else String c EmptyString
      | t => String c t
      end
  end.

(** [s.strip()] *)
Definition strip (s : string) : string := rstrip (lstrip s).

(** [s.split(sep, 1)] for a one-character separator: the text before the
    first [sep] and the text after it, or [s] alone when [sep] is absent. *)
Fixpoint split1 (sep : ascii) (s : string) : list string :=
  match s with
  | EmptyString => [EmptyString]
  | String c s' =>
      if bool_decide (c = sep) then [EmptyString; s']
      else match split1 sep s' with
           | [k; v] => [String c k; v]
           | _ => [s]
           end
  end.

End PyStr.

(** [p] is a prefix of [s]; [sub] occurs in [s]. *)
Definition starts_with (p s : string) : Prop := ∃ t, s = p +:+ t.

Definition occurs_in (sub s : string) : Prop := ∃ a b, s = a +:+ sub +:+ b.

(** ** Python values held in the session state

    The values an agent run stores and [json.dumps] serialises: [None],
    booleans, integers, strings, lists and dictionaries with string keys. *)
Inductive pyval : Type :=
| VNone
| VBool (b : bool)
| VInt (n : Z)
| VStr (s : string)
| VList (l : list pyval)
| VDict (d : list (string * pyval)).

(** [bool(v)], the test behind [if not v]. *)
Definition truthy (v : pyval) : bool :=
  match v with
  | VNone => false
  | VBool b => b
  | VInt n => negb (n =? 0)%Z
  | VStr s => negb (bool_decide (s = ""))
  | VList l => match l with [] => false | _ :: _ => true end
  | VDict d => match d with [] => false | _ :: _ => true end
  end.

(** [type(v).__name__] *)
Definition type_name (v : pyval) : string :=
  match v with
  | VNone => "NoneType"
  | VBool _ => "bool"
  | VInt _ => "int"
  | VStr _ => "str"
  | VList _ => "list"
  | VDict _ => "dict"
  end.

(** An instance [e] of [Exception], the class the driver's handler names:
    its class name and [str(e)]. *)
Record Exception : Type := mkException { exc_class : string; exc_str : string }.

(** The error of [v.attr] when [type(v)] has no attribute [attr]. *)
Definition AttributeError (v : pyval) (attr : string) : Exception :=
  mkException "AttributeError"
    ("'" +:+ type_name v +:+ "' object has no attribute '" +:+ attr +:+ "'").

(** ** The driver: [ResolveIssueAgent._run_async_impl] *)
Module Agent.

(** [ctx.session.state] *)
Abbreviation State := (gmap string pyval).

(** [st.get(key)]: the value stored under [key], [None] when there is none. *)
Definition get (st : State) (key : string) : pyval := default VNone (st !! key).

(** The dictionaries [error_response] and [success_response]. *)
Record Response : Type := mkResponse {
  success : bool;
  error : pyval;
  issue_details : pyval;
  analysis : pyval;
  implementation_summary : pyval;
  pull_request : pyval
}.

Section Driver.

(** What the driver takes from the agent runtime and from the [tools]
    package: the tool objects, the events a stage streams, and
    [LlmAgent.run_async]. *)
Context {Tool RtEvent : Type}.
Context (get_bash_tool : list string → nat → list Tool).
Context (grep_get_tools : list Tool).

(** [LlmAgent(name=..., model=..., instruction=..., tools=..., output_key=...)] *)
Record LlmAgent : Type := mkLlmAgent {
  name : string;
  model : string;
  instruction : string;
  tools : list Tool;
  output_key : option string
}.

(** One run of [agent.run_async(ctx)] that comes to an end: the events it
    streamed, the session state it left, and the [Exception] that ended it,
    if one did. *)
Record StageRun : Type := mkStageRun {
  run_events : list RtEvent;
  run_state : State;
  run_raised : option Exception
}.

Context (run_async : LlmAgent → State → StageRun).

(** The steps of the driver that a caller observes, in order: a loop
    [async for event in agent.run_async(ctx): yield event], with the run it
    forwarded, or a [yield] of the driver's own event, whose text is
    [json.dumps] of a response dictionary. *)
Inductive Step : Type :=
| Stage (a : LlmAgent) (r : StageRun)
| Emit (resp : Response).

(** A generator body: from the session state to the steps performed, the
    state left, and either the exception that escaped or a value. *)
Definition Gen (A : Type) : Type := State → list Step * State * (Exception + A).

#[local] Instance gen_ret : MRet Gen := λ A x st, ([], st, inr x).

#[local] Instance gen_bind : MBind Gen := λ A B f m st,
  match m st with
  | (tr, st', inl e) => (tr, st', inl e)
  | (tr, st', inr x) =>
      let '(tr', st'', res) := f x st' in (tr ++ tr', st'', res)
  end.

(** [raise e] *)
Definition raise {A} (e : Exception) : Gen A := λ st, ([], st, inl e).

(** [try: m  except Exception as e: handler e] *)
Definition try_except {A} (m : Gen A) (handler : Exception → Gen A) : Gen A :=
  λ st,
    match m st with
    | (tr, st', inl e) =>
        let '(tr', st'', res) := handler e st' in (tr ++ tr', st'', res)
    | (tr, st', inr x) => (tr, st', inr x)
    end.

(** [ctx.session.state.get(key)] *)
Definition state_get (key : string) : Gen pyval :=
  λ st, ([], st, inr (get st key)).

(** [ctx.session.state.get(key, dflt)] *)
Definition state_get_default (key : string) (dflt : pyval) : Gen pyval :=
  λ st, ([], st, inr (default dflt (st !! key))).

(** [yield Event(content={"role": "assistant", "parts": [{"text": json.dumps(resp)}]})] *)
Definition yield_response (resp : Response) : Gen unit :=
  λ st, ([Emit resp], st, inr ()).

(** [async for event in a.run_async(ctx): yield event] *)
Definition forward (a : LlmAgent) : Gen unit :=
  λ st,
    let r := run_async a st in
    ([Stage a r], run_state r,
     match run_raised r with Some e => inl e | None => inr () end).

(** [self.bash_tools] and [self.grep_tools.get_tools()], set in [__init__]. *)
Definition bash_tools : list Tool :=
  get_bash_tool
    ["gh"; "git"; "ls"; "find"; "grep"; "sed"; "cat";
     "wc"; "cp"; "mv"; "rm"; "mkdir"; "touch"]
    5000.

Definition fetch_agent (issue_url : string) : LlmAgent := {|
  name := "fetch_issue";
  model := "gemini-2.0-flash";
  instruction := "
                Fetch the GitHub issue details from " +:+ issue_url +:+ " using the GitHub CLI.
                Use the gh command to get the issue details including title and description.
                Return the issue details in JSON format with 'title' and 'description' fields.
                If fetching fails, return an error message.
                ";
  tools := bash_tools;
  output_key := Some "issue_details"
|}.

Definition analyze_agent : LlmAgent := {|
  name := "analyze_issue";
  model := "gemini-2.0-flash";
  instruction := "
                Analyze the GitHub issue to identify what needs to be fixed.
                
                1. Read the issue details from state['issue_details']
                2. Explore the repository structure to understand the codebase
                3. Identify relevant files and code sections that need modification
                4. Output your analysis in this exact XML format:
                
                <analysis>
                    <file>path/to/file.py</file>
                    <changes_needed>Description of changes needed in this file</changes_needed>
                </analysis>
                
                If multiple files need changes, use multiple <analysis> blocks.
                Focus on the actual source code files, not test files.
                ";
  tools := bash_tools ++ grep_get_tools;
  output_key := Some "analysis"
|}.

Definition implement_agent : LlmAgent := {|
  name := "implement_fix";
  model := "gemini-2.0-flash";
  instruction := "
                Implement the code changes based on the analysis from state['analysis'].
                
                1. Read the analysis results to understand what changes are needed
                2. Make the necessary code changes to the identified files
                3. Use only the provided bash tools for file modifications
                4. Do NOT modify test files
                5. Verify your changes are correct
                6. Summarize what you implemented
                
                Use commands like sed, grep, cat to make precise code changes.
                Avoid piping, chaining, or redirection in bash commands.
                ";
  tools := bash_tools ++ grep_get_tools;
  output_key := None
|}.

Definition pr_agent : LlmAgent := {|
  name := "create_pr";
  model := "gemini-2.0-flash";
  instruction := "
                Create a pull request for the implemented changes.
                
                1. Create a new branch with a descriptive name based on the issue
                2. Stage and commit the changes with a clear commit message
                3. Push the branch to the remote repository
                4. Create a pull request using the GitHub CLI
                5. Return the PR details including URL, branch name, and commit message
                
                Use git commands to manage the branch and GitHub CLI (gh) to create the PR.
                Make sure to provide a clear PR title and description.
                ";
  tools := bash_tools;
  output_key := Some "pr_output"
|}.

(** Steps 1 to 4 and the success response, for an [issue_url] that passed
    validation (lines 62 to 201). *)
Definition stages (issue_url : string) : Gen unit :=
  forward (fetch_agent issue_url);;
  v1 ← state_get "issue_details";
  if negb (truthy v1) then
    yield_response {|
      success := false;
      error := VStr "No issue_details found";
      issue_details := VNone;
      analysis := VNone;
      implementation_summary := VNone;
      pull_request := VNone |}
  else
  forward analyze_agent;;
  v2 ← state_get "analysis";
  if negb (truthy v2) then
    i ← state_get "issue_details";
    yield_response {|
      success := false;
      error := VStr "No analysis found";
      issue_details := i;
      analysis := VNone;
      implementation_summary := VNone;
      pull_request := VNone |}
  else
  forward implement_agent;;
  forward pr_agent;;
  v4 ← state_get "pr_output";
  if negb (truthy v4) then
    i ← state_get "issue_details";
    a ← state_get "analysis";
    yield_response {|
      success := false;
      error := VStr "PR creation failed";
      issue_details := i;
      analysis := a;
      implementation_summary :=
        VStr "Changes were implemented but PR creation failed";
      pull_request := VNone |}
  else
  i ← state_get "issue_details";
  a ← state_get "analysis";
  p ← state_get "pr_output";
  yield_response {|
    success := true;
    error := VNone;
    issue_details := i;
    analysis := a;
    implementation_summary :=
      VStr "Successfully implemented code changes based on issue analysis";
    pull_request := p |}.

(** The body of the [try] block (lines 32 to 201). A truthy [issue_url]
    that is not a [str] has no [startswith] method. *)
Definition try_body : Gen unit :=
  user_input ← state_get_default "user_input" (VStr "");
  issue_url ← state_get_default "issue_url" (VStr "");
  if negb (truthy issue_url) then
    yield_response {|
      success := false;
      error := VStr "No issue_url provided";
      issue_details := VNone;
      analysis := VNone;
      implementation_summary := VNone;
      pull_request := VNone |}
  else
  match issue_url with
  | VStr url =>
      if negb (PyStr.startswith url "https://github.com/"
               && PyStr.contains "/issues/" url) then
        yield_response {|
          success := false;
          error := VStr "Invalid issue_url format";
          issue_details := VNone;
          analysis := VNone;
          implementation_summary := VNone;
          pull_request := VNone |}
      else stages url
  | other => raise (AttributeError other "startswith")
  end.

(** The [except Exception as e] handler (lines 203 to 212). *)
Definition handler (e : Exception) : Gen unit :=
  i ← state_get "issue_details";
  a ← state_get "analysis";
  s ← state_get "implementation_summary";
  p ← state_get "pr_output";
  yield_response {|
    success := false;
    error := VStr ("Unexpected error: " +:+ exc_str e);
    issue_details := i;
    analysis := a;
    implementation_summary := s;
    pull_request := p |}.

Definition _run_async_impl : Gen unit := try_except try_body handler.

(** What a run of the driver on the session state [st] shows: its steps,
    the responses among them, the session state at the end, and whether an
    exception escaped the generator. *)
Definition steps (st : State) : list Step := (_run_async_impl st).1.1.

Definition final_state (st : State) : State := (_run_async_impl st).1.2.

Definition escaped (st : State) : option Exception :=
  match (_run_async_impl st).2 with inl e => Some e | inr _ => None end.

Definition envelopes (tr : list Step) : list Response :=
  omap (λ s, match s with Emit resp => Some resp | Stage _ _ => None end) tr.

(** The stages invoked, in order. *)
Definition invoked (tr : list Step) : list LlmAgent :=
  omap (λ s, match s with Stage a _ => Some a | Emit _ => None end) tr.

(** The events the caller receives: those forwarded from the stages and
    those of the driver's own. *)
Inductive Event : Type :=
| RuntimeEvent (e : RtEvent)
| ResponseEvent (resp : Response).

Definition yielded (tr : list Step) : list Event :=
  s ← tr;
  match s with
  | Stage _ r => RuntimeEvent <$> run_events r
  | Emit resp => [ResponseEvent resp]
  end.

(** *** The execution paths of the driver

    The response dictionaries of the source, as functions of the session
    state they are built from. *)
Definition validation_response (msg : string) : Response :=
  mkResponse false (VStr msg) VNone VNone VNone VNone.

Definition no_analysis_response (st : State) : Response :=
  mkResponse false (VStr "No analysis found")
    (get st "issue_details") VNone VNone VNone.

Definition pr_failed_response (st : State) : Response :=
  mkResponse false (VStr "PR creation failed")
    (get st "issue_details") (get st "analysis")
    (VStr "Changes were implemented but PR creation failed") VNone.

Definition success_response (st : State) : Response :=
  mkResponse true VNone
    (get st "issue_details") (get st "analysis")
    (VStr "Successfully implemented code changes based on issue analysis")
    (get st "pr_output").

Definition unexpected_response (e : Exception) (st : State) : Response :=
  mkResponse false (VStr ("Unexpected error: " +:+ exc_str e))
    (get st "issue_details") (get st "analysis")
    (get st "implementation_summary") (get st "pr_output").

(** The response of the driver's test on [key] when it finds nothing
    (lines 81, 121 and 180). *)
Definition missing_response (key : string) (st : State) : Response :=
  if bool_decide (key = "issue_details") then
    validation_response "No issue_details found"
  else if bool_decide (key = "analysis") then no_analysis_response st
  else pr_failed_response st.

(** [issue_url] as the driver reads it: [state.get("issue_url", "")]. *)
Definition issue_url_of (st : State) : pyval :=
  default (VStr "") (st !! "issue_url").

(** The test of line 50. *)
Definition well_formed (url : string) : bool :=
  PyStr.startswith url "https://github.com/" && PyStr.contains "/issues/" url.

(** How a stage ended, as the driver sees it after the loop: it raised, or
    it came to its end and the driver's test on [key] found nothing, or it
    came to its end and the test found a value. *)
Definition raised_with (r : StageRun) (e : Exception) : Prop :=
  run_raised r = Some e.

Definition passed (r : StageRun) (key : string) : Prop :=
  run_raised r = None ∧ truthy (get (run_state r) key) = true.

Definition missed (r : StageRun) (key : string) : Prop :=
  run_raised r = None ∧ truthy (get (run_state r) key) = false.

Definition done_ok (r : StageRun) : Prop := run_raised r = None.

(** [Path st tr st']: the driver, started on [st], performs the steps [tr]
    and leaves the state [st']. One constructor per way through the body. *)
Inductive Path (st : State) : list Step → State → Prop :=
| path_no_url :
    truthy (issue_url_of st) = false →
    Path st [Emit (validation_response "No issue_url provided")] st
| path_not_str :
    truthy (issue_url_of st) = true →
    (∀ url, issue_url_of st ≠ VStr url) →
    Path st
      [Emit (unexpected_response
               (AttributeError (issue_url_of st) "startswith") st)] st
| path_bad_format url :
    issue_url_of st = VStr url → url ≠ "" → well_formed url = false →
    Path st [Emit (validation_response "Invalid issue_url format")] st
| path_fetch_raised url r1 e :
    issue_url_of st = VStr url → well_formed url = true →
    r1 = run_async (fetch_agent url) st →
    raised_with r1 e →
    Path st [Stage (fetch_agent url) r1;
             Emit (unexpected_response e (run_state r1))] (run_state r1)
| path_no_issue_details url r1 :
    issue_url_of st = VStr url → well_formed url = true →
    r1 = run_async (fetch_agent url) st →
    missed r1 "issue_details" →
    Path st [Stage (fetch_agent url) r1;
             Emit (validation_response "No issue_details found")]
         (run_state r1)
| path_analyze_raised url r1 r2 e :
    issue_url_of st = VStr url → well_formed url = true →
    r1 = run_async (fetch_agent url) st →
    passed r1 "issue_details" →
    r2 = run_async analyze_agent (run_state r1) →
    raised_with r2 e →
    Path st [Stage (fetch_agent url) r1; Stage analyze_agent r2;
             Emit (unexpected_response e (run_state r2))] (run_state r2)
| path_no_analysis url r1 r2 :
    issue_url_of st = VStr url → well_formed url = true →
    r1 = run_async (fetch_agent url) st →
    passed r1 "issue_details" →
    r2 = run_async analyze_agent (run_state r1) →
    missed r2 "analysis" →
    Path st [Stage (fetch_agent url) r1; Stage analyze_agent r2;
             Emit (no_analysis_response (run_state r2))] (run_state r2)
| path_implement_raised url r1 r2 r3 e :
    issue_url_of st = VStr url → well_formed url = true →
    r1 = run_async (fetch_agent url) st →
    passed r1 "issue_details" →
    r2 = run_async analyze_agent (run_state r1) →
    passed r2 "analysis" →
    r3 = run_async implement_agent (run_state r2) →
    raised_with r3 e →
    Path st [Stage (fetch_agent url) r1; Stage analyze_agent r2;
             Stage implement_agent r3;
             Emit (unexpected_response e (run_state r3))] (run_state r3)
| path_pr_raised url r1 r2 r3 r4 e :
    issue_url_of st = VStr url → well_formed url = true →
    r1 = run_async (fetch_agent url) st →
    passed r1 "issue_details" →
    r2 = run_async analyze_agent (run_state r1) →
    passed r2 "analysis" →
    r3 = run_async implement_agent (run_state r2) →
    done_ok r3 →
    r4 = run_async pr_agent (run_state r3) →
    raised_with r4 e →
    Path st [Stage (fetch_agent url) r1; Stage analyze_agent r2;
             Stage implement_agent r3; Stage pr_agent r4;
             Emit (unexpected_response e (run_state r4))] (run_state r4)
| path_pr_failed url r1 r2 r3 r4 :
    issue_url_of st = VStr url → well_formed url = true →
    r1 = run_async (fetch_agent url) st →
    passed r1 "issue_details" →
    r2 = run_async analyze_agent (run_state r1) →
    passed r2 "analysis" →
    r3 = run_async implement_agent (run_state r2) →
    done_ok r3 →
    r4 = run_async pr_agent (run_state r3) →
    missed r4 "pr_output" →
    Path st [Stage (fetch_agent url) r1; Stage analyze_agent r2;
             Stage implement_agent r3; Stage pr_agent r4;
             Emit (pr_failed_response (run_state r4))] (run_state r4)
| path_success url r1 r2 r3 r4 :
    issue_url_of st = VStr url → well_formed url = true →
    r1 = run_async (fetch_agent url) st →
    passed r1 "issue_details" →
    r2 = run_async analyze_agent (run_state r1) →
    passed r2 "analysis" →
    r3 = run_async implement_agent (run_state r2) →
    done_ok r3 →
    r4 = run_async pr_agent (run_state r3) →
    passed r4 "pr_output" →
    Path st [Stage (fetch_agent url) r1; Stage analyze_agent r2;
             Stage implement_agent r3; Stage pr_agent r4;
             Emit (success_response (run_state r4))] (run_state r4).

(** The session state once the steps [tr] are done, from the state [st]:
    a stage leaves the state of its run, a [yield] leaves the state as it
    is. *)
Definition state_after (st : State) (tr : list Step) : State :=
  foldl (λ s step, match step with Stage _ r => run_state r | Emit _ => s end)
    st tr.

End Driver.

(** *** A runtime to run the driver on

    Tools are the names of the commands they allow, a stage streams its own
    name as its one event, stores the value scripted for its output key when
    there is one, and raises the exception scripted for its name when there
    is one. *)
Definition command_tools (allowed_commands : list string) (truncate_length : nat)
  : list string := allowed_commands.

Definition scripted (outputs : gmap string pyval) (faults : gmap string Exception)
    (a : @LlmAgent string) (st : State) : @StageRun string :=
  {| run_events := [name a];
     run_state :=
       match output_key a with
       | Some k => match outputs !! k with Some v => <[k:=v]> st | None => st end
       | None => st
       end;
     run_raised := faults !! name a |}.

(** The driver on the scripted runtime. *)
Definition scripted_steps (outputs : gmap string pyval)
    (faults : gmap string Exception) (st : State) : list (@Step string string) :=
  steps command_tools ["grep_search"] (scripted outputs faults) st.

End Agent.

(** ** Start-up: [main] *)
Module Main.

(** [os.environ], as the mapping from names to values that the loader
    assigns into. *)
Abbreviation Environ := (gmap string string).

(** [os.environ[key] = value], on POSIX: [os.putenv] refuses a name or a
    value with an embedded NUL and a name that holds ["="], and [setenv]
    refuses the empty name; otherwise the variable is set, whether or not
    it was set before. *)
Definition NUL : string := String "000" "".

Definition environ_setitem (key value : string) (environ : Environ)
  : Exception + Environ :=
  if PyStr.contains NUL key || PyStr.contains NUL value then
    inl (mkException "ValueError" "embedded null byte")
  else if PyStr.contains "=" key then
    inl (mkException "ValueError" "illegal environment variable name")
  else if bool_decide (key = "") then
    inl (mkException "OSError" "[Errno 22] Invalid argument")
  else inr (<[key:=value]> environ).

(** The failure of [key, value = parts] when [parts] has one element. *)
Definition unpack_error : Exception :=
  mkException "ValueError" "not enough values to unpack (expected 2, got 1)".

(** The body of the loop of lines 23 to 27, for one [line] of the file. *)
Definition load_line (environ : Environ) (line : string) : Exception + Environ :=
  let line := PyStr.strip line in
  if negb (bool_decide (line = "")) && negb (PyStr.startswith line "#")
     && PyStr.contains "=" line
  then
    match PyStr.split1 "=" line with
    | [key; value] => environ_setitem key value environ
    | _ => inl unpack_error
    end
  else inr environ.

(** [for line in f: ...] *)
Fixpoint load_lines (environ : Environ) (lines : list string)
  : Exception + Environ :=
  match lines with
  | [] => inr environ
  | line :: rest =>
      match load_line environ line with
      | inl e => inl e
      | inr environ' => load_lines environ' rest
      end
  end.

(** Lines 20 to 27: [env_file] is the lines of the [.env] file, when the
    file exists. *)
Definition load_env_file (env_file : option (list string)) (environ : Environ)
  : Exception + Environ :=
  match env_file with
  | Some lines => load_lines environ lines
  | None => inr environ
  end.

(** The [state] handed to [create_session] (lines 37 to 40). *)
Definition initial_state (issue_url : string) : gmap string pyval :=
  {[ "issue_url" := VStr issue_url;
     "user_input" := VStr ("Please resolve the GitHub issue: " +:+ issue_url) ]}.

End Main.

(** * Properties *)

(** ** Strings *)
Section PyStrFacts.
Import PyStr.

Lemma startswith_spec s p : startswith s p = true ↔ starts_with p s.
Proof.
  unfold starts_with. revert s.
  induction p as [|c p IH]; intros s; simpl.
  - split; [intros _; by exists s | done].
  - destruct s as [|d s]; simpl.
    + split; [done | intros [t Ht]; discriminate].
    + rewrite andb_true_iff, bool_decide_eq_true, IH. split.
      * intros [-> [t ->]]. by exists t.
      * intros [t Ht]. injection Ht as -> ->. eauto.
Qed.

Lemma startswith_false s p : startswith s p = false ↔ ¬ starts_with p s.
Proof. rewrite <- startswith_spec. by destruct (startswith s p). Qed.

Lemma contains_spec sub s : contains sub s = true ↔ occurs_in sub s.
Proof.
  unfold occurs_in.
  induction s as [|d s IH].
  - cbn [contains]. rewrite orb_false_r, startswith_spec. split.
    + intros [t Ht]. exists "", t. done.
    + intros ([|??] & b & Hab); [|discriminate]. by exists b.
  - cbn [contains]. rewrite orb_true_iff, startswith_spec, IH. split.
    + intros [[t Ht] | (a & b & ->)].
      * by exists "", t.
      * by exists (String d a), b.
    + intros ([|c a] & b & Hab).
      * left. by exists b.
      * right. injection Hab as -> ->. eauto.
Qed.

Lemma contains_false sub s : contains sub s = false ↔ ¬ occurs_in sub s.
Proof. rewrite <- contains_spec. by destruct (contains sub s). Qed.

End PyStrFacts.

(** ** The driver *)
Section DriverFacts.
Import Agent.

Context {Tool RtEvent : Type}.
Context (get_bash_tool : list string → nat → list Tool).
Context (grep_get_tools : list Tool).
Context (run_async : @LlmAgent Tool → State → @StageRun RtEvent).

#[local] Abbreviation steps := (steps get_bash_tool grep_get_tools run_async).
#[local] Abbreviation final_state :=
  (final_state get_bash_tool grep_get_tools run_async).
#[local] Abbreviation escaped := (escaped get_bash_tool grep_get_tools run_async).
#[local] Abbreviation Path := (Path get_bash_tool grep_get_tools run_async).
#[local] Abbreviation fetch_agent := (fetch_agent get_bash_tool).
#[local] Abbreviation analyze_agent := (analyze_agent get_bash_tool grep_get_tools).
#[local] Abbreviation implement_agent :=
  (implement_agent get_bash_tool grep_get_tools).
#[local] Abbreviation pr_agent := (pr_agent get_bash_tool).

(** Symbolic execution of a generator body: unfold the monad, keep the
    agents, the string tests and the truth test folded. *)
#[local] Ltac gen_simpl :=
  unfold mbind, gen_bind, mret, gen_ret, state_get_default, state_get,
    yield_response, raise, forward;
  cbn -[truthy PyStr.startswith PyStr.contains Agent.fetch_agent
        Agent.analyze_agent Agent.implement_agent Agent.pr_agent get].

(** Every run of the driver follows one of the paths, and no exception
    escapes it. *)
Lemma run_path (st : State) :
  Path st (steps st) (final_state st) ∧ escaped st = None.
Proof.
  unfold Agent.steps, Agent.final_state, Agent.escaped, _run_async_impl,
    try_except, try_body, handler.
  gen_simpl. fold (issue_url_of st).
  destruct (truthy (issue_url_of st)) eqn:Hurl; gen_simpl.
  2:{ split; [by apply path_no_url | done]. }
  pose proof (path_not_str get_bash_tool grep_get_tools run_async st Hurl)
    as Hnot_str.
  destruct (issue_url_of st) as [| | |url| |] eqn:Hu;
    try (split; [by apply Hnot_str | done]).
  clear Hnot_str.
  fold (well_formed url).
  destruct (well_formed url) eqn:Hwf; gen_simpl.
  2:{ split; [|done]. apply path_bad_format with url; try done.
      intros ->. discriminate. }
  unfold stages. gen_simpl.
  set (r1 := run_async (fetch_agent url) st).
  destruct (run_raised r1) as [e|] eqn:H1; gen_simpl.
  { split; [by eapply path_fetch_raised | done]. }
  destruct (truthy (get (run_state r1) "issue_details")) eqn:T1; gen_simpl.
  2:{ split; [by eapply path_no_issue_details | done]. }
  set (r2 := run_async analyze_agent (run_state r1)).
  destruct (run_raised r2) as [e|] eqn:H2; gen_simpl.
  { split; [by eapply path_analyze_raised | done]. }
  destruct (truthy (get (run_state r2) "analysis")) eqn:T2; gen_simpl.
  2:{ split; [by eapply path_no_analysis | done]. }
  set (r3 := run_async implement_agent (run_state r2)).
  destruct (run_raised r3) as [e|] eqn:H3; gen_simpl.
  { split; [by eapply path_implement_raised | done]. }
  set (r4 := run_async pr_agent (run_state r3)).
  destruct (run_raised r4) as [e|] eqn:H4; gen_simpl.
  { split; [by eapply path_pr_raised | done]. }
  destruct (truthy (get (run_state r4) "pr_output")) eqn:T4; gen_simpl.
  - split; [by eapply path_success | done].
  - split; [by eapply path_pr_failed | done].
Qed.

(** Where a stage stands in the steps of a run. *)
#[local] Ltac locate_stage :=
  repeat match goal with
  | H : _ = ?pre ++ Stage _ _ :: _ |- _ => destruct pre; simplify_eq/=
  end.

(** Case analysis on the path a run takes. *)
#[local] Ltac by_path st :=
  let Hpath := fresh "Hpath" in
  let tr := fresh "tr" in
  let fs := fresh "fs" in
  destruct (run_path st) as [Hpath _];
  set (tr := steps st) in *; set (fs := final_state st) in *;
  clearbody tr fs; destruct Hpath;
  unfold raised_with, passed, missed, done_ok in *.

#[local] Ltac path_cases st :=
  by_path st; locate_stage; destruct_and?; simplify_eq/=.

(** A stage that raises is followed by the handler's response and by
    nothing else. *)
Lemma after_raise st pre a r post e :
  steps st = pre ++ Stage a r :: post →
  run_raised r = Some e →
  post = [Emit (unexpected_response e (run_state r))] ∧ final_state st = run_state r.
Proof. intros H Hr. path_cases st; done. Qed.

(** A stage that ends without the value the driver tests for is followed
    by the response for that key and by nothing else. *)
Lemma after_miss st pre a r post k :
  steps st = pre ++ Stage a r :: post →
  output_key a = Some k →
  run_raised r = None →
  truthy (get (run_state r) k) = false →
  post = [Emit (missing_response k (run_state r))]
  ∧ final_state st = run_state r
  ∧ k ∈ ["issue_details"; "analysis"; "pr_output"].
Proof.
  intros H Hk Hr Hv. path_cases st; try congruence.
  all: split_and!; try reflexivity; rewrite !elem_of_cons; auto.
Qed.

(** The stages that came before a given one, by position. *)
Lemma stage_order st pre a r post :
  steps st = pre ++ Stage a r :: post →
  ∃ url,
    (pre = [] ∧ a = fetch_agent url)
    ∨ (∃ r1, pre = [Stage (fetch_agent url) r1] ∧ a = analyze_agent)
    ∨ (∃ r1 r2, pre = [Stage (fetch_agent url) r1; Stage analyze_agent r2]
                ∧ a = implement_agent)
    ∨ (∃ r1 r2 r3,
         pre = [Stage (fetch_agent url) r1; Stage analyze_agent r2;
                Stage implement_agent r3]
         ∧ a = pr_agent).
Proof. intros H. path_cases st; eexists; naive_solver. Qed.

(** The test of line 50, in terms of the text of the URL. *)
Lemma well_formed_spec url :
  well_formed url = true
  ↔ starts_with "https://github.com/" url ∧ occurs_in "/issues/" url.
Proof.
  unfold well_formed.
  by rewrite andb_true_iff, startswith_spec, contains_spec.
Qed.

Lemma truthy_str s : truthy (VStr s) = false ↔ s = "".
Proof. simpl. rewrite negb_false_iff. apply bool_decide_eq_true. Qed.

(** A run has one response among its steps, and it is the last step. *)
Lemma one_envelope (st : State) :
  ∃ resp, envelopes (steps st) = [resp] ∧ last (steps st) = Some (Emit resp).
Proof.
  destruct (run_path st) as [Hpath _]. destruct Hpath; by eexists.
Qed.

(** The session [main] creates holds the URL as a [str], so the driver
    reads a [str] and the test of line 50 cannot raise. *)
Lemma initial_state_url url : issue_url_of (Main.initial_state url) = VStr url.
Proof.
  unfold issue_url_of, Main.initial_state. by rewrite lookup_insert_eq.
Qed.

(** C7: on every path of the driver (a rejected input, a missing value
    after a stage, an exception, full success) the run yields exactly one
    response envelope, the envelope is the last thing the run yields, and
    the generator ends without letting an exception out. *)
Theorem C7_exactly_one_envelope (st : State) :
  ∃ resp evs,
    envelopes (steps st) = [resp]
    ∧ last (steps st) = Some (Emit resp)
    ∧ yielded (steps st) = (RuntimeEvent <$> evs) ++ [ResponseEvent resp]
    ∧ escaped st = None.
Proof.
  destruct (run_path st) as [Hpath Hesc].
  destruct Hpath; eexists; simpl; rewrite ?app_nil_r.
  1-3: by exists [].
  1-2: by eexists.
  all: rewrite ?app_assoc, <- ?fmap_app; by eexists.
Qed.

(** C4: an issue URL that is empty, or does not start with
    "https://github.com/", or does not contain "/issues/", ends the run at
    once: no stage is invoked, the one step is an envelope with
    success false and every result field null, and its error is
    "No issue_url provided" exactly when the URL is empty (it is
    "Invalid issue_url format" otherwise). *)
Theorem C4_bad_url_rejected (st : State) (url : string) :
  issue_url_of st = VStr url →
  url = "" ∨ ¬ starts_with "https://github.com/" url
  ∨ ¬ occurs_in "/issues/" url →
  ∃ msg,
    steps st = [Emit (mkResponse false (VStr msg) VNone VNone VNone VNone)]
    ∧ invoked (steps st) = []
    ∧ final_state st = st
    ∧ (msg = "No issue_url provided" ↔ url = "")
    ∧ (url ≠ "" → msg = "Invalid issue_url format").
Proof.
  intros Hu Hbad.
  assert (well_formed url = false) as Hwf.
  { destruct (well_formed url) eqn:Hwf; [|done].
    apply well_formed_spec in Hwf as [Hs Ho].
    destruct Hbad as [-> | [? | ?]]; try done.
    by destruct Hs. }
  by_path st; try (rewrite Hu in *; simplify_eq; congruence).
  - rewrite Hu in *. apply truthy_str in H as ->.
    exists "No issue_url provided". by split_and!.
  - rewrite Hu in *. simplify_eq. exists "Invalid issue_url format".
    by split_and!.
Qed.

(** C8: every string that starts with "https://github.com/" and has
    "/issues/" somewhere in it passes validation, and the driver goes on to
    invoke stage 1 (the fetch agent, instructed with that URL) on the
    session state as it is; nothing else about the shape of the URL is
    looked at. *)
Theorem C8_validation_accepts (st : State) (url : string) :
  issue_url_of st = VStr url →
  starts_with "https://github.com/" url →
  occurs_in "/issues/" url →
  ∃ post,
    steps st = Stage (fetch_agent url) (run_async (fetch_agent url) st) :: post.
Proof.
  intros Hu Hs Ho.
  assert (well_formed url = true) as Hwf by by apply well_formed_spec.
  assert (url ≠ "") as Hne by (intros ->; by destruct Hs).
  by_path st; rewrite Hu in *; simplify_eq; try by eexists.
  - by apply truthy_str in H.
  - naive_solver.
  - congruence.
Qed.

(** C5: when stage 1 comes to its end and the session state then holds no
    "issue_details" key, the run stops there: the next and last step is the
    envelope with success false, error "No issue_details found" and every
    result field null, and stages 2 to 4 are not invoked. *)
Theorem C5_no_issue_details (st : State) a1 r1 post :
  steps st = Stage a1 r1 :: post →
  run_raised r1 = None →
  run_state r1 !! "issue_details" = None →
  post = [Emit (mkResponse false (VStr "No issue_details found")
                  VNone VNone VNone VNone)]
  ∧ invoked (steps st) = [a1]
  ∧ ∃ url, a1 = fetch_agent url.
Proof.
  intros H Hr Hk.
  destruct (stage_order st [] a1 r1 post H) as [url Hpos].
  destruct Hpos as [[_ ->] | [(? & Hp & _) | [(? & ? & Hp & _) | (? & ? & ? & Hp & _)]]];
    [|discriminate Hp..].
  destruct (after_miss st [] _ r1 post "issue_details" H eq_refl Hr)
    as (-> & _ & _).
  { unfold get. by rewrite Hk. }
  rewrite H. eauto.
Qed.

(** C3: when a stage raises an exception, the driver catches it: the step
    after the stage is the last one, and it is the one envelope of the run,
    with success false, error "Unexpected error: " followed by the message
    of the exception, and issue_details, analysis, implementation_summary
    and pull_request read from the session state as the stage left it
    (keys "issue_details", "analysis", "implementation_summary",
    "pr_output", null for a key that is not there). *)
Theorem C3_exception_envelope (st : State) pre a r post e :
  steps st = pre ++ Stage a r :: post →
  run_raised r = Some e →
  let resp :=
    mkResponse false (VStr ("Unexpected error: " +:+ exc_str e))
      (get (run_state r) "issue_details") (get (run_state r) "analysis")
      (get (run_state r) "implementation_summary")
      (get (run_state r) "pr_output") in
  post = [Emit resp]
  ∧ envelopes (steps st) = [resp]
  ∧ escaped st = None.
Proof.
  intros H Hr resp. subst resp.
  destruct (after_raise st pre a r post e H Hr) as [-> _].
  split; [done|]. split; [|apply run_path].
  destruct (one_envelope st) as (resp' & Henv & Hlast).
  rewrite Henv. rewrite H, last_app in Hlast. by simplify_eq/=.
Qed.

(** The response for a missing value does not look at the key it is
    about, so a falsy value under it and no value give the same response. *)
Lemma missing_response_delete k (st : State) :
  k ∈ ["issue_details"; "analysis"; "pr_output"] →
  missing_response k (delete k st) = missing_response k st.
Proof.
  rewrite !elem_of_cons, elem_of_nil.
  intros [-> | [-> | [-> | []]]]; unfold missing_response; simpl; try done.
  - unfold no_analysis_response, get. by rewrite lookup_delete_ne.
  - unfold pr_failed_response, get. by rewrite !lookup_delete_ne.
Qed.

Lemma get_None (st : State) k : st !! k = None → get st k = VNone.
Proof. unfold get. by intros ->. Qed.

Lemma get_Some (st : State) k v : st !! k = Some v → get st k = v.
Proof. unfold get. by intros ->. Qed.

(** C2 (amended): for every stage of the pipeline with an output key (the
    fetch, analysis and pull-request stages; the implementation stage has
    none), if the stage
    comes to its end and its key is not in the session state, the driver's
    next step is an error envelope and it is the last step, so no later
    stage runs. The envelope has success false, an error string fixed by
    the key ("No issue_details found", "No analysis found",
    "PR creation failed"), the values of the earlier stages' keys read from
    the session state, and null for the missing key. *)
Theorem C2_missing_key_short_circuit (st : State) pre a r post k :
  steps st = pre ++ Stage a r :: post →
  output_key a = Some k →
  run_raised r = None →
  run_state r !! k = None →
  ∃ resp,
    post = [Emit resp]
    ∧ invoked (steps st) = invoked pre ++ [a]
    ∧ success resp = false
    ∧ ((k = "issue_details"
        ∧ resp = mkResponse false (VStr "No issue_details found")
                   VNone VNone VNone VNone)
       ∨ (k = "analysis"
          ∧ resp = mkResponse false (VStr "No analysis found")
                     (get (run_state r) "issue_details") VNone VNone VNone)
       ∨ (k = "pr_output"
          ∧ resp = mkResponse false (VStr "PR creation failed")
                     (get (run_state r) "issue_details")
                     (get (run_state r) "analysis")
                     (VStr "Changes were implemented but PR creation failed")
                     VNone)).
Proof.
  intros H Hk Hr Hnone.
  destruct (after_miss st pre a r post k H Hk Hr) as (-> & _ & Hin).
  { by rewrite (get_None _ _ Hnone). }
  eexists. split; [done|]. split.
  { rewrite H. unfold invoked. by rewrite omap_app. }
  revert Hin. rewrite !elem_of_cons, elem_of_nil.
  intros [-> | [-> | [-> | []]]]; (split; [done|]); auto.
Qed.

(** Stage 3 has no output key and no test follows it: when it comes to its
    end, stage 4 is the next step, whatever the session state holds. *)
Lemma implement_unchecked (st : State) pre r3 post :
  steps st = pre ++ Stage implement_agent r3 :: post →
  run_raised r3 = None →
  output_key implement_agent = None
  ∧ ∃ post', post = Stage pr_agent (run_async pr_agent (run_state r3)) :: post'.
Proof.
  intros H Hr. split; [done|]. path_cases st; try congruence; by eexists.
Qed.

(** C6: when the driver has reached stage 4 (so stages 1 to 3 went
    through), stage 4 comes to its end, "issue_details" and "analysis" are
    in the session state and "pr_output" is not, the next and last step is
    the envelope with success false, error "PR creation failed", the
    issue_details and analysis values of the state, the fixed
    implementation summary "Changes were implemented but PR creation
    failed", and pull_request null. *)
Theorem C6_pr_creation_failed (st : State) pre r4 post v_i v_a :
  steps st = pre ++ Stage pr_agent r4 :: post →
  run_raised r4 = None →
  run_state r4 !! "issue_details" = Some v_i →
  run_state r4 !! "analysis" = Some v_a →
  run_state r4 !! "pr_output" = None →
  post = [Emit (mkResponse false (VStr "PR creation failed") v_i v_a
                  (VStr "Changes were implemented but PR creation failed")
                  VNone)]
  ∧ ∃ url, invoked pre = [fetch_agent url; analyze_agent; implement_agent].
Proof.
  intros H Hr Hi Ha Hp.
  destruct (after_miss st pre _ r4 post "pr_output" H eq_refl Hr)
    as (-> & _ & _).
  { by rewrite (get_None _ _ Hp). }
  split.
  - unfold missing_response, pr_failed_response. simpl.
    by rewrite (get_Some _ _ _ Hi), (get_Some _ _ _ Ha).
  - destruct (stage_order st pre _ r4 _ H) as [url Hpos]. exists url.
    destruct Hpos as [[_ Ha4] | [(? & _ & Ha4) | [(? & ? & _ & Ha4)
                     | (? & ? & ? & -> & _)]]];
      [discriminate Ha4.. | done].
Qed.

(** C1 (amended): when the driver has reached stage 4 (so all four stages
    run), stage 4 comes to its end, and "issue_details", "analysis" and
    "pr_output" are in the session state, the value under "pr_output" being
    truthy (not empty), the next and last step is the envelope with
    success true, error null, issue_details, analysis and pull_request
    holding the values of the state, and implementation_summary the fixed
    string "Successfully implemented code changes based on issue
    analysis". *)
Theorem C1_success_envelope (st : State) pre r4 post v_i v_a v_p :
  steps st = pre ++ Stage pr_agent r4 :: post →
  run_raised r4 = None →
  run_state r4 !! "issue_details" = Some v_i →
  run_state r4 !! "analysis" = Some v_a →
  run_state r4 !! "pr_output" = Some v_p →
  truthy v_p = true →
  post = [Emit (mkResponse true VNone v_i v_a
                  (VStr "Successfully implemented code changes based on issue analysis")
                  v_p)]
  ∧ (∃ url, invoked (steps st)
            = [fetch_agent url; analyze_agent; implement_agent; pr_agent])
  ∧ final_state st = run_state r4.
Proof.
  intros H Hr Hi Ha Hp Htrue.
  apply get_Some in Hi, Ha, Hp. subst v_i v_a v_p.
  path_cases st; try congruence; try discriminate.
  split; [done|]. split; [by eexists | done].
Qed.

(** *** Further properties of the driver *)

#[local] Abbreviation state_after := (state_after (Tool:=Tool) (RtEvent:=RtEvent)).

(** The stages are invoked in the order fetch, analyze, implement, create
    pull request, from the first on, none skipped and none twice: the
    stages of a run are a prefix of that sequence. *)
Theorem invoked_in_order (st : State) :
  ∃ url,
    invoked (steps st)
    `prefix_of` [fetch_agent url; analyze_agent; implement_agent; pr_agent].
Proof.
  by_path st; simpl; try (exists ""; by apply prefix_nil);
    exists url; try done.
  - by exists [analyze_agent; implement_agent; pr_agent].
  - by exists [analyze_agent; implement_agent; pr_agent].
  - by exists [implement_agent; pr_agent].
  - by exists [implement_agent; pr_agent].
  - by exists [pr_agent].
Qed.

(** A stage is invoked exactly when [issue_url] is a [str] that starts with
    "https://github.com/" and has "/issues/" in it. *)
Theorem stage_invoked_iff_valid_url (st : State) :
  invoked (steps st) ≠ []
  ↔ ∃ url, issue_url_of st = VStr url
           ∧ starts_with "https://github.com/" url
           ∧ occurs_in "/issues/" url.
Proof.
  split.
  - intros Hinv. by_path st; simpl in Hinv; try done;
      exists url; by rewrite <- well_formed_spec.
  - intros (url & Hu & Hwf). rewrite <- well_formed_spec in Hwf.
    by_path st; simpl; try done; rewrite Hu in *; simplify_eq.
    + by apply truthy_str in H as ->.
    + naive_solver.
    + congruence.
Qed.

(** A missing [issue_url], or any falsy one ([None], [False], [0], the
    empty string, list or dictionary), is answered with the
    "No issue_url provided" envelope, and nothing else happens. *)
Theorem falsy_url_rejected (st : State) :
  truthy (issue_url_of st) = false →
  steps st = [Emit (mkResponse false (VStr "No issue_url provided")
                      VNone VNone VNone VNone)]
  ∧ final_state st = st.
Proof.
  intros Hf. by_path st; try done; try congruence.
  all: match goal with
       | Hu : issue_url_of _ = VStr _ |- _ =>
           rewrite Hu in Hf; apply truthy_str in Hf as ->; done
       end.
Qed.


(** The first stage runs on the session state the driver was started on,
    and every later stage on the state the steps before it left. *)
Theorem stage_handoff (st : State) pre a r post :
  steps st = pre ++ Stage a r :: post →
  r = run_async a (state_after st pre).
Proof. intros H. path_cases st; done. Qed.

(** The driver itself writes nothing into the session state: the state at
    the end of a run is the one its last stage left, and the state it was
    started on when no stage ran. *)
Theorem driver_writes_nothing (st : State) :
  final_state st = state_after st (steps st).
Proof. by_path st; done. Qed.

(** A stage is only invoked after the stage before it came to its end
    without raising and, when that stage has an output key, left a truthy
    value under it. *)
Theorem stage_gate (st : State) pre a' r' a r post :
  steps st = pre ++ Stage a' r' :: Stage a r :: post →
  run_raised r' = None
  ∧ ∀ k, output_key a' = Some k → truthy (get (run_state r') k) = true.
Proof.
  intros H. by_path st;
    repeat (destruct pre as [|? pre]; simplify_eq/=);
    destruct_and?; split; try done; intros k Hk; by simplify_eq/=.
Qed.

(** The envelope says success only at the end of a run in which all four
    stages ran, none raised, and the tests after stages 1, 2 and 4 found a
    truthy value; its pull_request is then that truthy "pr_output". *)
Theorem success_only_after_all_stages (st : State) resp :
  Emit resp ∈ steps st →
  success resp = true →
  ∃ url r1 r2 r3 r4,
    steps st = [Stage (fetch_agent url) r1; Stage analyze_agent r2;
                Stage implement_agent r3; Stage pr_agent r4; Emit resp]
    ∧ Forall (λ r, run_raised r = None) [r1; r2; r3; r4]
    ∧ truthy (get (run_state r1) "issue_details") = true
    ∧ truthy (get (run_state r2) "analysis") = true
    ∧ truthy (pull_request resp) = true
    ∧ error resp = VNone.
Proof.
  intros Hin Hs. by_path st;
    repeat (apply elem_of_cons in Hin as [Hin|Hin]; simplify_eq/=);
    try by apply elem_of_nil in Hin.
  destruct_and?. do 5 eexists. split_and!; try done.
  by repeat constructor.
Qed.

(** The error of the envelope is null exactly on success; on failure it is
    one of five fixed messages or "Unexpected error: " followed by the
    message of the exception. *)
Theorem error_taxonomy (st : State) :
  ∃ resp,
    envelopes (steps st) = [resp]
    ∧ (success resp = true ↔ error resp = VNone)
    ∧ (success resp = false →
       ∃ msg, error resp = VStr msg
              ∧ (msg ∈ ["No issue_url provided"; "Invalid issue_url format";
                        "No issue_details found"; "No analysis found";
                        "PR creation failed"]
                 ∨ starts_with "Unexpected error: " msg)).
Proof.
  by_path st; eexists; (split; [reflexivity|]); simpl; (split; [done|]);
    intros Hs; try done; eexists; (split; [reflexivity|]);
    try (right; by eexists);
    left; rewrite !elem_of_cons; auto 10.
Qed.

(** The envelope invents no result: issue_details, analysis and
    pull_request are null or the value the session state holds under
    "issue_details", "analysis" and "pr_output" at the end of the run. *)
Theorem envelope_fields_from_state (st : State) :
  ∃ resp,
    envelopes (steps st) = [resp]
    ∧ (issue_details resp = VNone
       ∨ issue_details resp = get (final_state st) "issue_details")
    ∧ (analysis resp = VNone ∨ analysis resp = get (final_state st) "analysis")
    ∧ (pull_request resp = VNone
       ∨ pull_request resp = get (final_state st) "pr_output").
Proof.
  by_path st; eexists; (split; [reflexivity|]); simpl; auto.
Qed.

(** On the session [main] creates for a URL, the driver reads the URL back
    as a [str], so exactly one of three things happens: the URL is empty
    and is refused as missing, it is not of the expected form and is
    refused as invalid, or stage 1 is invoked on it with that session. *)
Theorem main_session_run (url : string) :
  let st := Main.initial_state url in
  (url = ""
   ∧ steps st = [Emit (mkResponse false (VStr "No issue_url provided")
                         VNone VNone VNone VNone)])
  ∨ (url ≠ "" ∧ well_formed url = false
     ∧ steps st = [Emit (mkResponse false (VStr "Invalid issue_url format")
                           VNone VNone VNone VNone)])
  ∨ (well_formed url = true
     ∧ ∃ post,
         steps st
         = Stage (fetch_agent url) (run_async (fetch_agent url) st) :: post).
Proof.
  intros st. pose proof (initial_state_url url) as Hu. fold st in Hu.
  by_path st; rewrite Hu in *; simplify_eq;
    try (right; right; split; [done | by eexists]).
  - left. by apply truthy_str in H as ->.
  - naive_solver.
  - right; left. done.
Qed.

End DriverFacts.

Section TwoRuns.
Import Agent.

Context {Tool RtEvent : Type}.
Context (get_bash_tool : list string → nat → list Tool).
Context (grep_get_tools : list Tool).
Context (run_async run_async' : @LlmAgent Tool → State → @StageRun RtEvent).

(** C9: the driver's tests after stages 1, 2 and 4 take a falsy value for
    no value. When a stage comes to its end with a falsy value (such as the
    empty string) stored under its output key, the run stops with a
    success-false envelope, and the steps that follow the stage are the
    very steps that follow it in a run (of any runtime) where the stage
    leaves the same state without that key. *)
Theorem C9_falsy_value_is_absent (st st' : State) pre pre' a r r' post post' k v :
  steps get_bash_tool grep_get_tools run_async st = pre ++ Stage a r :: post →
  output_key a = Some k →
  run_raised r = None →
  run_state r !! k = Some v →
  truthy v = false →
  steps get_bash_tool grep_get_tools run_async' st' = pre' ++ Stage a r' :: post' →
  run_raised r' = None →
  run_state r' = delete k (run_state r) →
  (∃ resp, post = [Emit resp] ∧ success resp = false)
  ∧ post' = post
  ∧ k ∈ ["issue_details"; "analysis"; "pr_output"].
Proof.
  intros H Hk Hr Hv Hfalsy H' Hr' Hst'.
  destruct (after_miss _ _ _ st pre a r post k H Hk Hr) as (-> & _ & Hin).
  { by rewrite (get_Some _ _ _ Hv). }
  split_and!; [|..|done].
  - eexists. split; [done|]. revert Hin. rewrite !elem_of_cons, elem_of_nil.
    by intros [-> | [-> | [-> | []]]].
  - destruct (after_miss _ _ _ st' pre' a r' post' k H' Hk Hr') as (-> & _ & _).
    { rewrite Hst'. unfold get. by rewrite lookup_delete_eq. }
    by rewrite Hst', missing_response_delete.
Qed.

End TwoRuns.

(** ** The [.env] loader *)
Section LoaderFacts.
Import PyStr Main.

Lemma startswith_char c d s :
  startswith (String d s) (String c "") = bool_decide (c = d).
Proof. simpl. apply andb_true_r. Qed.

(** [split1] cuts at the first separator. *)
Lemma split1_cut sep k v :
  contains (String sep "") k = false →
  split1 sep (k +:+ String sep v) = [k; v].
Proof.
  induction k as [|c k IH]; simpl.
  - intros _. by rewrite bool_decide_eq_true_2.
  - intros [Hc Hk]%orb_false_elim. rewrite andb_true_r in Hc.
    apply bool_decide_eq_false in Hc.
    rewrite bool_decide_eq_false_2 by congruence. by rewrite IH.
Qed.

(** A string that holds the separator has a first occurrence of it. *)
Lemma first_occurrence sep s :
  contains (String sep "") s = true →
  ∃ k v, s = k +:+ String sep v ∧ contains (String sep "") k = false.
Proof.
  induction s as [|c s IH]; [done|].
  cbn [contains]. rewrite startswith_char.
  destruct (bool_decide (sep = c)) eqn:Hc; simpl.
  - intros _. apply bool_decide_eq_true in Hc as ->. by exists "", s.
  - intros (k & v & -> & Hk)%IH. exists (String c k), v. split; [done|].
    cbn [contains]. by rewrite startswith_char, Hc.
Qed.

Lemma append_assoc (a b c : string) : (a +:+ b) +:+ c = a +:+ b +:+ c.
Proof.
  induction a as [|x a IH]; [done|].
  change (String x ((a +:+ b) +:+ c) = String x (a +:+ b +:+ c)).
  by f_equal.
Qed.

Lemma occurs_in_app_l sub k rest : occurs_in sub k → occurs_in sub (k +:+ rest).
Proof.
  intros (a & b & ->). exists a, (b +:+ rest).
  by rewrite !append_assoc.
Qed.

Lemma occurs_in_app_r sub k rest : occurs_in sub rest → occurs_in sub (k +:+ rest).
Proof.
  intros (a & b & ->). exists (k +:+ a), b.
  by rewrite !append_assoc.
Qed.

(** The unpacking of line 26 cannot fail: the test of line 25 has seen the
    separator. *)
Lemma load_line_unpacks environ line : load_line environ line ≠ inl unpack_error.
Proof.
  unfold load_line.
  destruct (negb _ && negb _ && contains "=" (strip line)) eqn:Hguard; [|done].
  apply andb_true_iff in Hguard as [_ (k & v & Hl & Hk)%first_occurrence].
  rewrite Hl, split1_cut by done.
  unfold environ_setitem. by repeat case_match.
Qed.

(** What [strip] leaves is a part of the line, and a first character that
    is not white space stays first. *)
Lemma lstrip_suffix s : ∃ a, s = a +:+ lstrip s.
Proof.
  induction s as [|c s [a IH]]; [by exists ""|]. simpl.
  destruct (isspace c); [|by exists ""].
  exists (String c a). change (String c s = String c (a +:+ lstrip s)).
  by f_equal.
Qed.

Lemma rstrip_prefix s : ∃ b, s = rstrip s +:+ b.
Proof.
  induction s as [|c s [b IH]]; [by exists ""|]. simpl.
  destruct (rstrip s) as [|d t] eqn:Hr.
  - destruct (isspace c); [by exists (String c s)|].
    exists b. change (String c s = String c ("" +:+ b)). by f_equal.
  - exists b. change (String c s = String c (String d t +:+ b)). by f_equal.
Qed.

Lemma occurs_in_strip sub s : occurs_in sub (strip s) → occurs_in sub s.
Proof.
  unfold strip. intros Ho.
  destruct (lstrip_suffix s) as [a Ha], (rstrip_prefix (lstrip s)) as [b Hb].
  rewrite Ha, Hb. by apply occurs_in_app_r, occurs_in_app_l.
Qed.

Lemma strip_keeps_first c s :
  isspace c = false → ∃ t, strip (String c s) = String c t.
Proof.
  intros Hc. unfold strip. simpl. rewrite Hc. simpl. rewrite Hc.
  destruct (rstrip s); by eexists.
Qed.

(** The lines the specification names as skipped are skipped as they
    stand: a blank line, a line whose first character is "#", a line
    without "=". *)
Lemma skips_raw_line environ line :
  strip line = "" ∨ starts_with "#" line ∨ ¬ occurs_in "=" line →
  load_line environ line = inr environ.
Proof.
  unfold load_line. intros [-> | [[t ->] | Hn]]; [done|..].
  - change ("#" +:+ t) with (String "#" t).
    by destruct (strip_keeps_first "#" t eq_refl) as [t' ->].
  - destruct (contains "=" (strip line)) eqn:Hc.
    + apply contains_spec, occurs_in_strip in Hc. done.
    + by rewrite andb_false_r.
Qed.

(** C10 (amended): for every line of the file the loader first strips the
    white space around it. It skips the line when what is left is empty,
    starts with "#" or holds no "=". Every other line is cut at its first
    "=" only, so the value may hold "=", and, the name being non-empty and
    the line free of NUL, the value is assigned to the name in the
    environment whether or not the name was set before. *)
Theorem C10_env_loader (environ : Environ) (line : string) :
  let l := strip line in
  (l = "" ∨ starts_with "#" l ∨ ¬ occurs_in "=" l →
   load_line environ line = inr environ)
  ∧ (∀ key value,
       l = key +:+ "=" +:+ value →
       ¬ occurs_in "=" key →
       ¬ starts_with "#" l →
       key ≠ "" →
       ¬ occurs_in NUL l →
       load_line environ line = inr (<[key:=value]> environ)
       ∧ (<[key:=value]> environ) !! key = Some value).
Proof.
  intros l. unfold load_line. fold l. split.
  - intros [-> | [Hc | Hn]]; [done|..].
    + apply startswith_spec in Hc. rewrite Hc. by rewrite andb_false_r.
    + apply contains_false in Hn. rewrite Hn. by rewrite andb_false_r.
  - intros key value Hl Hkey Hhash Hne Hnul.
    split; [|apply lookup_insert_eq].
    apply contains_false in Hkey. apply startswith_false in Hhash.
    assert (contains NUL key = false ∧ contains NUL value = false) as [Hk0 Hv0].
    { split; apply contains_false; intros Ho; apply Hnul; rewrite Hl.
      - by apply occurs_in_app_l.
      - by do 2 apply occurs_in_app_r. }
    assert (contains "=" l = true) as Heq.
    { apply contains_spec. exists key, value. by rewrite Hl. }
    assert (l ≠ "") as Hl0 by (rewrite Hl; by destruct key).
    rewrite Hhash, Heq, bool_decide_eq_false_2 by done. simpl.
    rewrite Hl. change ("=" +:+ value) with (String "=" value).
    rewrite split1_cut by done. unfold environ_setitem.
    by rewrite Hk0, Hv0, Hkey, bool_decide_eq_false_2.
Qed.

(** *** Further properties of the loader *)

(** What a line does is fixed by the line: it is skipped, or it assigns one
    value to one name, or it is refused, whatever the environment holds. *)
Lemma load_line_cases line :
  (∀ environ, load_line environ line = inr environ)
  ∨ (∃ key value,
       strip line = key +:+ "=" +:+ value
       ∧ ¬ occurs_in "=" key
       ∧ ∀ environ, load_line environ line = inr (<[key:=value]> environ))
  ∨ (∃ e, e ≠ unpack_error ∧ ∀ environ, load_line environ line = inl e).
Proof.
  unfold load_line.
  destruct (negb _ && negb _ && contains "=" (strip line)) eqn:Hguard;
    [|by left].
  apply andb_true_iff in Hguard as [_ (k & v & Hl & Hk)%first_occurrence].
  rewrite Hl, split1_cut by done. unfold environ_setitem.
  repeat case_match;
    try (right; right; eexists; split; [|intros; reflexivity]; discriminate).
  right; left. exists k, v. split; [reflexivity|]. split; [|done].
  by apply contains_false.
Qed.

Lemma load_lines_cons environ line rest :
  load_lines environ (line :: rest)
  = match load_line environ line with
    | inl e => inl e
    | inr environ' => load_lines environ' rest
    end.
Proof. reflexivity. Qed.

(** The unpacking [key, value = line.split("=", 1)] never fails, whatever
    the file holds: the test before it has seen the "=". *)
Theorem unpack_never_fails environ lines :
  load_lines environ lines ≠ inl unpack_error.
Proof.
  revert environ. induction lines as [|line rest IH]; intros environ; [done|].
  rewrite load_lines_cons.
  destruct (load_line environ line) as [e|environ'] eqn:Hl; [|apply IH].
  intros [= ->]. by apply (load_line_unpacks environ line).
Qed.

Lemma load_lines_split environ lines1 lines2 :
  load_lines environ (lines1 ++ lines2)
  = match load_lines environ lines1 with
    | inl e => inl e
    | inr environ' => load_lines environ' lines2
    end.
Proof.
  revert environ. induction lines1 as [|line rest IH]; intros environ; [done|].
  simpl. destruct (load_line environ line); [done | apply IH].
Qed.

(** Loading a file that loads and then a second one is loading the two as
    one file. *)
Theorem load_lines_app environ lines1 lines2 environ1 :
  load_lines environ lines1 = inr environ1 →
  load_lines environ (lines1 ++ lines2) = load_lines environ1 lines2.
Proof. intros H. by rewrite load_lines_split, H. Qed.

(** The loader never unsets a variable: what was set before the file was
    read is still set after. *)
Theorem load_lines_keeps_variables environ lines environ' name :
  load_lines environ lines = inr environ' →
  is_Some (environ !! name) →
  is_Some (environ' !! name).
Proof.
  revert environ. induction lines as [|line rest IH]; intros environ.
  - by intros [= ->].
  - rewrite load_lines_cons. intros Hload Hset.
    destruct (load_line_cases line) as [Hs | [(k & v & _ & _ & Ha) | (e & _ & He)]].
    + rewrite Hs in Hload. eauto.
    + rewrite Ha in Hload. apply (IH _ Hload).
      destruct (decide (k = name)) as [->|Hne].
      * rewrite lookup_insert_eq. eauto.
      * by rewrite lookup_insert_ne.
    + by rewrite He in Hload.
Qed.

Lemma unnamed_untouched environ lines environ' name :
  load_lines environ lines = inr environ' →
  (∀ line, line ∈ lines → ¬ starts_with (name +:+ "=") (strip line)) →
  environ' !! name = environ !! name.
Proof.
  revert environ. induction lines as [|line rest IH]; intros environ.
  - by intros [= ->].
  - rewrite load_lines_cons. intros Hload Hno.
    assert (∀ l, l ∈ rest → ¬ starts_with (name +:+ "=") (strip l)) as Hrest.
    { intros l Hl. apply Hno. by right. }
    destruct (load_line_cases line) as [Hs | [(k & v & Hk & _ & Ha) | (e & _ & He)]].
    + rewrite Hs in Hload. eauto.
    + rewrite Ha in Hload. rewrite (IH _ Hload Hrest).
      apply lookup_insert_ne. intros ->.
      apply (Hno line); [by left|]. exists v. by rewrite Hk, append_assoc.
    + by rewrite He in Hload.
Qed.

(** A variable that no line of the file names keeps the value it had, or
    stays unset: only a line whose stripped text starts with the name and
    "=" can change it. *)
Theorem load_lines_untouched environ lines environ' name :
  load_lines environ lines = inr environ' →
  (∀ line, line ∈ lines → ¬ starts_with (name +:+ "=") (strip line)) →
  environ' !! name = environ !! name.
Proof. apply unnamed_untouched. Qed.

(** The last line that names a variable decides its value: earlier lines
    for the same name and the value the variable had are replaced. *)
Theorem last_assignment_wins environ before line after environ' name value :
  load_lines environ (before ++ line :: after) = inr environ' →
  strip line = name +:+ "=" +:+ value →
  ¬ occurs_in "=" name →
  ¬ starts_with "#" (strip line) →
  (∀ l, l ∈ after → ¬ starts_with (name +:+ "=") (strip l)) →
  environ' !! name = Some value.
Proof.
  intros Hload Hl Hname Hhash Hafter.
  rewrite load_lines_split in Hload.
  destruct (load_lines environ before) as [|e1]; [done|].
  rewrite load_lines_cons in Hload.
  destruct (load_line e1 line) as [|e2] eqn:Hline; [done|].
  rewrite (unnamed_untouched _ _ _ _ Hload Hafter).
  revert Hline. unfold load_line.
  apply contains_false in Hname. apply startswith_false in Hhash.
  assert (contains "=" (strip line) = true) as Heq.
  { apply contains_spec. exists name, value. by rewrite Hl. }
  rewrite Hhash, Heq, Hl.
  rewrite bool_decide_eq_false_2 by (by destruct name). simpl.
  change ("=" +:+ value) with (String "=" value).
  rewrite split1_cut by done.
  unfold environ_setitem. repeat case_match; try done.
  intros [= <-]. apply lookup_insert_eq.
Qed.

Lemma same_assignments environ lines environ' other :
  load_lines environ lines = inr environ' →
  ∃ other',
    load_lines other lines = inr other'
    ∧ ∀ name,
        other' !! name = environ' !! name
        ∨ (other' !! name = other !! name ∧ environ' !! name = environ !! name).
Proof.
  revert environ other. induction lines as [|line rest IH]; intros environ other.
  - intros [= ->]. exists other. split; [done|]. by right.
  - rewrite !load_lines_cons. intros Hload.
    destruct (load_line_cases line) as [Hs | [(k & v & _ & _ & Ha) | (e & _ & He)]].
    + rewrite Hs in *. eauto.
    + rewrite Ha in *.
      destruct (IH _ (<[k:=v]> other) Hload) as (other' & Hother & Hsame).
      exists other'. split; [done|]. intros name.
      destruct (Hsame name) as [?|[Ho He]]; [by left|].
      destruct (decide (k = name)) as [->|Hne].
      * left. rewrite Ho, He. by rewrite !lookup_insert_eq.
      * right. by rewrite Ho, He, !lookup_insert_ne.
    + by rewrite He in Hload.
Qed.

(** Which variables a file sets, and to what, does not depend on the
    environment it is loaded into: a file that loads into one environment
    loads into any other, and each variable either gets the same value in
    both or is left as it was in both. *)
Theorem load_lines_env_independent environ lines environ' other :
  load_lines environ lines = inr environ' →
  ∃ other',
    load_lines other lines = inr other'
    ∧ ∀ name,
        other' !! name = environ' !! name
        ∨ (other' !! name = other !! name ∧ environ' !! name = environ !! name).
Proof. apply same_assignments. Qed.

(** Reading the file again changes nothing: the environment a file has
    just been loaded into is left as it is by a second load. *)
Theorem load_lines_idempotent environ lines environ' :
  load_lines environ lines = inr environ' →
  load_lines environ' lines = inr environ'.
Proof.
  intros Hload.
  destruct (same_assignments environ lines environ' environ' Hload)
    as (again & Hagain & Hsame).
  rewrite Hagain. f_equal. apply map_eq. intros name.
  by destruct (Hsame name) as [?|[? ?]].
Qed.

End LoaderFacts.

(** ** Runs on the scripted runtime *)
Section Runs.
Import Agent.

(** The steps of the run named in the goal, computed, handed to [k] with
    the script and the state of the run. *)
#[local] Ltac with_steps k :=
  match goal with
  | |- context [scripted_steps ?o ?f ?st] =>
      let v := eval vm_compute in (scripted_steps o f st) in k o f st v
  end.

#[local] Ltac compute_eq := vm_compute; reflexivity.

(** C1, at a run where every stage stores a non-empty text. *)
Lemma C1_success_envelope_witness :
  ∃ pre r4 post,
    scripted_steps
      {[ "issue_details" := VStr "crash on empty input";
         "analysis" := VStr "<analysis><file>a.py</file></analysis>";
         "pr_output" := VStr "https://github.com/o/r/pull/8" ]} ∅
      (Main.initial_state "https://github.com/o/r/issues/7")
    = pre ++ Stage (pr_agent command_tools) r4 :: post
    ∧ post = [Emit (mkResponse true VNone
                      (VStr "crash on empty input")
                      (VStr "<analysis><file>a.py</file></analysis>")
                      (VStr "Successfully implemented code changes based on issue analysis")
                      (VStr "https://github.com/o/r/pull/8"))].
Proof.
  with_steps ltac:(fun o f st v =>
    match v with
    | [?s1; ?s2; ?s3; Stage _ ?r4; ?e] =>
        exists [s1; s2; s3], r4, [e]; split; [compute_eq|];
        refine (proj1 (C1_success_envelope command_tools ["grep_search"]
                         (scripted o f) st [s1; s2; s3] r4 [e]
                         _ _ _ _ _ _ _ _ _)); compute_eq
    end).
Defined.

(** C1 as stated fails: stage 4 stores the empty text under "pr_output".
    All four stages run, none raises, the three keys are in the session
    state at the end, and the envelope has success false. *)
Lemma C1_counterexample :
  ∃ pre r4 post,
    scripted_steps
      {[ "issue_details" := VStr "crash on empty input";
         "analysis" := VStr "<analysis><file>a.py</file></analysis>";
         "pr_output" := VStr "" ]} ∅
      (Main.initial_state "https://github.com/o/r/issues/7")
    = pre ++ Stage (pr_agent command_tools) r4 :: post
    ∧ name <$> invoked pre = ["fetch_issue"; "analyze_issue"; "implement_fix"]
    ∧ Forall (λ s, match s with Stage _ r => run_raised r = None | Emit _ => True end)
        (pre ++ [Stage (pr_agent command_tools) r4])
    ∧ run_state r4 !! "issue_details" = Some (VStr "crash on empty input")
    ∧ run_state r4 !! "analysis"
      = Some (VStr "<analysis><file>a.py</file></analysis>")
    ∧ run_state r4 !! "pr_output" = Some (VStr "")
    ∧ post = [Emit (mkResponse false (VStr "PR creation failed")
                      (VStr "crash on empty input")
                      (VStr "<analysis><file>a.py</file></analysis>")
                      (VStr "Changes were implemented but PR creation failed")
                      VNone)].
Proof.
  with_steps ltac:(fun o f st v =>
    match v with
    | [?s1; ?s2; ?s3; Stage _ ?r4; ?e] => exists [s1; s2; s3], r4, [e]
    end).
  split_and!; try compute_eq.
  repeat constructor.
Qed.

(** C2 as stated fails at stage 3: the implementation stage has no output
    key, ends without raising and stores nothing (the session state is as
    the steps before it left it, with no "implementation_summary"), and the
    driver emits no error envelope: the pull-request stage runs next and
    the run ends in the success envelope. *)
Lemma C2_counterexample :
  ∃ pre r3 r4 resp,
    scripted_steps
      {[ "issue_details" := VStr "crash on empty input";
         "analysis" := VStr "<analysis><file>a.py</file></analysis>";
         "pr_output" := VStr "https://github.com/o/r/pull/8" ]} ∅
      (Main.initial_state "https://github.com/o/r/issues/7")
    = pre ++ [Stage (implement_agent command_tools ["grep_search"]) r3;
              Stage (pr_agent command_tools) r4; Emit resp]
    ∧ output_key (implement_agent command_tools ["grep_search"]) = None
    ∧ run_raised r3 = None
    ∧ run_state r3
      = state_after (Main.initial_state "https://github.com/o/r/issues/7") pre
    ∧ run_state r3 !! "implementation_summary" = None
    ∧ success resp = true.
Proof.
  with_steps ltac:(fun o f st v =>
    match v with
    | [?s1; ?s2; Stage _ ?r3; Stage _ ?r4; Emit ?resp] =>
        exists [s1; s2], r3, r4, resp
    end).
  split_and!; compute_eq.
Qed.

(** C2, at a run where the analysis stage stores nothing. *)
Lemma C2_missing_key_short_circuit_witness :
  ∃ pre r post,
    scripted_steps {[ "issue_details" := VStr "crash on empty input" ]} ∅
      (Main.initial_state "https://github.com/o/r/issues/7")
    = pre ++ Stage (analyze_agent command_tools ["grep_search"]) r :: post
    ∧ run_state r !! "analysis" = None
    ∧ ∃ resp, post = [Emit resp] ∧ success resp = false.
Proof.
  with_steps ltac:(fun o f st v =>
    match v with
    | [?s1; Stage _ ?r; ?e] =>
        exists [s1], r, [e]; split; [compute_eq|]; split; [compute_eq|];
        destruct (C2_missing_key_short_circuit command_tools ["grep_search"]
                    (scripted o f) st [s1]
                    (analyze_agent command_tools ["grep_search"]) r [e]
                    "analysis")
          as (resp & Hpost & _ & Hsuccess & _); [compute_eq..|];
        exists resp; exact (conj Hpost Hsuccess)
    end).
Defined.

(** C3, at a run where the implementation stage raises. *)
Lemma C3_exception_envelope_witness :
  ∃ pre r post,
    scripted_steps
      {[ "issue_details" := VStr "crash on empty input";
         "analysis" := VStr "<analysis><file>a.py</file></analysis>" ]}
      {[ "implement_fix" := mkException "RuntimeError" "sed: no such file" ]}
      (Main.initial_state "https://github.com/o/r/issues/7")
    = pre ++ Stage (implement_agent command_tools ["grep_search"]) r :: post
    ∧ post = [Emit (mkResponse false
                      (VStr "Unexpected error: sed: no such file")
                      (VStr "crash on empty input")
                      (VStr "<analysis><file>a.py</file></analysis>")
                      VNone VNone)].
Proof.
  with_steps ltac:(fun o f st v =>
    match v with
    | [?s1; ?s2; Stage _ ?r; ?e] =>
        exists [s1; s2], r, [e]; split; [compute_eq|];
        refine (proj1 (C3_exception_envelope command_tools ["grep_search"]
                         (scripted o f) st [s1; s2] _ r [e]
                         (mkException "RuntimeError" "sed: no such file")
                         _ _)); compute_eq
    end).
Defined.

(** C4, at a URL on another host. *)
Lemma C4_bad_url_rejected_witness :
  ∃ msg,
    scripted_steps ∅ ∅ (Main.initial_state "https://gitlab.com/o/r/issues/7")
    = [Emit (mkResponse false (VStr msg) VNone VNone VNone VNone)]
    ∧ msg = "Invalid issue_url format".
Proof.
  destruct (C4_bad_url_rejected command_tools ["grep_search"] (scripted ∅ ∅)
              (Main.initial_state "https://gitlab.com/o/r/issues/7")
              "https://gitlab.com/o/r/issues/7")
    as (msg & Hsteps & _ & _ & _ & Hmsg).
  - compute_eq.
  - right; left. apply startswith_false. compute_eq.
  - exists msg. split; [exact Hsteps | by apply Hmsg].
Defined.

(** C5, at a run where the fetch stage stores nothing. *)
Lemma C5_no_issue_details_witness :
  ∃ a1 r1 post,
    scripted_steps ∅ ∅ (Main.initial_state "https://github.com/o/r/issues/7")
    = Stage a1 r1 :: post
    ∧ run_state r1 !! "issue_details" = None
    ∧ post = [Emit (mkResponse false (VStr "No issue_details found")
                      VNone VNone VNone VNone)].
Proof.
  with_steps ltac:(fun o f st v =>
    match v with
    | [Stage ?a1 ?r1; ?e] =>
        exists a1, r1, [e]; split; [compute_eq|]; split; [compute_eq|];
        refine (proj1 (C5_no_issue_details command_tools ["grep_search"]
                         (scripted o f) st a1 r1 [e] _ _ _)); compute_eq
    end).
Defined.

(** C6, at a run where the pull-request stage stores nothing. *)
Lemma C6_pr_creation_failed_witness :
  ∃ pre r4 post,
    scripted_steps
      {[ "issue_details" := VStr "crash on empty input";
         "analysis" := VStr "<analysis><file>a.py</file></analysis>" ]} ∅
      (Main.initial_state "https://github.com/o/r/issues/7")
    = pre ++ Stage (pr_agent command_tools) r4 :: post
    ∧ run_state r4 !! "pr_output" = None
    ∧ post = [Emit (mkResponse false (VStr "PR creation failed")
                      (VStr "crash on empty input")
                      (VStr "<analysis><file>a.py</file></analysis>")
                      (VStr "Changes were implemented but PR creation failed")
                      VNone)].
Proof.
  with_steps ltac:(fun o f st v =>
    match v with
    | [?s1; ?s2; ?s3; Stage _ ?r4; ?e] =>
        exists [s1; s2; s3], r4, [e]; split; [compute_eq|];
        split; [compute_eq|];
        refine (proj1 (C6_pr_creation_failed command_tools ["grep_search"]
                         (scripted o f) st [s1; s2; s3] r4 [e]
                         _ _ _ _ _ _ _)); compute_eq
    end).
Defined.

(** C8, at a URL with no issue number and at one with "/issues/" in its
    fragment. *)
Lemma C8_validation_accepts_witness :
  (∃ post,
     scripted_steps ∅ ∅ (Main.initial_state "https://github.com/x/issues/")
     = Stage (fetch_agent command_tools "https://github.com/x/issues/")
         (scripted ∅ ∅ (fetch_agent command_tools "https://github.com/x/issues/")
            (Main.initial_state "https://github.com/x/issues/"))
       :: post)
  ∧ (∃ post,
       scripted_steps ∅ ∅ (Main.initial_state "https://github.com/o/r#/issues/")
       = Stage (fetch_agent command_tools "https://github.com/o/r#/issues/")
           (scripted ∅ ∅
              (fetch_agent command_tools "https://github.com/o/r#/issues/")
              (Main.initial_state "https://github.com/o/r#/issues/"))
         :: post).
Proof.
  split.
  - apply (C8_validation_accepts command_tools ["grep_search"] (scripted ∅ ∅)
             (Main.initial_state "https://github.com/x/issues/")
             "https://github.com/x/issues/").
    + compute_eq.
    + by exists "x/issues/".
    + by exists "https://github.com/x", "".
  - apply (C8_validation_accepts command_tools ["grep_search"] (scripted ∅ ∅)
             (Main.initial_state "https://github.com/o/r#/issues/")
             "https://github.com/o/r#/issues/").
    + compute_eq.
    + by exists "o/r#/issues/".
    + by exists "https://github.com/o/r#", "".
Defined.

(** C9, at a run where the pull-request stage stores the empty text and at
    one where it stores nothing. *)
Lemma C9_falsy_value_is_absent_witness :
  ∃ pre r post pre' r' post',
    scripted_steps
      {[ "issue_details" := VStr "crash on empty input";
         "analysis" := VStr "<analysis><file>a.py</file></analysis>";
         "pr_output" := VStr "" ]} ∅
      (Main.initial_state "https://github.com/o/r/issues/7")
    = pre ++ Stage (pr_agent command_tools) r :: post
    ∧ scripted_steps
        {[ "issue_details" := VStr "crash on empty input";
           "analysis" := VStr "<analysis><file>a.py</file></analysis>" ]} ∅
        (Main.initial_state "https://github.com/o/r/issues/7")
      = pre' ++ Stage (pr_agent command_tools) r' :: post'
    ∧ run_state r !! "pr_output" = Some (VStr "")
    ∧ run_state r' !! "pr_output" = None
    ∧ post' = post.
Proof.
  match goal with
  | |- ∃ _ _ _ _ _ _,
         scripted_steps ?o ?f ?st = _ ∧ scripted_steps ?o' ?f' ?st' = _ ∧ _ =>
      let v := eval vm_compute in (scripted_steps o f st) in
      let v' := eval vm_compute in (scripted_steps o' f' st') in
      match v with
      | [?s1; ?s2; ?s3; Stage _ ?r; ?e] =>
          match v' with
          | [?t1; ?t2; ?t3; Stage _ ?r'; ?e'] =>
              exists [s1; s2; s3], r, [e], [t1; t2; t3], r', [e'];
              do 4 (split; [vm_compute; reflexivity|]);
              refine (proj1 (proj2
                (C9_falsy_value_is_absent command_tools ["grep_search"]
                   (scripted o f) (scripted o' f') st st'
                   [s1; s2; s3] [t1; t2; t3] (pr_agent command_tools)
                   r r' [e] [e'] "pr_output" (VStr "")
                   _ _ _ _ _ _ _ _)));
              vm_compute; reflexivity
          end
      end
  end.
Defined.

(** *** Runs for the further properties *)

(** A session whose [issue_url] is the number 0. *)
Lemma falsy_url_rejected_witness :
  scripted_steps ∅ ∅ {[ "issue_url" := VInt 0 ]}
  = [Emit (mkResponse false (VStr "No issue_url provided")
             VNone VNone VNone VNone)].
Proof.
  refine (proj1 (falsy_url_rejected command_tools ["grep_search"]
                   (scripted ∅ ∅) {[ "issue_url" := VInt 0 ]} _)).
  compute_eq.
Defined.


(** The analysis stage of a full run is run on the state the fetch stage
    left. *)
Lemma stage_handoff_witness :
  ∃ s1 r2 post,
    scripted_steps
      {[ "issue_details" := VStr "crash on empty input";
         "analysis" := VStr "<analysis><file>a.py</file></analysis>";
         "pr_output" := VStr "https://github.com/o/r/pull/8" ]} ∅
      (Main.initial_state "https://github.com/o/r/issues/7")
    = [s1] ++ Stage (analyze_agent command_tools ["grep_search"]) r2 :: post
    ∧ run_state r2 !! "issue_details" = Some (VStr "crash on empty input")
    ∧ r2 = scripted
             {[ "issue_details" := VStr "crash on empty input";
                "analysis" := VStr "<analysis><file>a.py</file></analysis>";
                "pr_output" := VStr "https://github.com/o/r/pull/8" ]} ∅
             (analyze_agent command_tools ["grep_search"])
             (state_after (Main.initial_state "https://github.com/o/r/issues/7")
                [s1]).
Proof.
  with_steps ltac:(fun o f st v =>
    match v with
    | [?s1; Stage _ ?r2; ?s3; ?s4; ?e] =>
        exists s1, r2, [s3; s4; e]; split; [compute_eq|];
        split; [compute_eq|];
        refine (stage_handoff command_tools ["grep_search"] (scripted o f) st
                  [s1] (analyze_agent command_tools ["grep_search"]) r2
                  [s3; s4; e] _); compute_eq
    end).
Defined.

(** The analysis stage follows a fetch stage that did not raise and left a
    truthy "issue_details". *)
Lemma stage_gate_witness :
  ∃ r1 r2 post,
    scripted_steps
      {[ "issue_details" := VStr "crash on empty input" ]} ∅
      (Main.initial_state "https://github.com/o/r/issues/7")
    = [] ++ Stage (fetch_agent command_tools "https://github.com/o/r/issues/7") r1
         :: Stage (analyze_agent command_tools ["grep_search"]) r2 :: post
    ∧ run_raised r1 = None
    ∧ truthy (get (run_state r1) "issue_details") = true.
Proof.
  with_steps ltac:(fun o f st v =>
    match v with
    | [Stage ?a1 ?r1; Stage _ ?r2; ?e] =>
        exists r1, r2, [e]; split; [compute_eq|];
        destruct (stage_gate command_tools ["grep_search"] (scripted o f)
                    st [] a1 r1
                    (analyze_agent command_tools ["grep_search"]) r2 [e])
          as [Hraised Hkey]; [compute_eq|];
        exact (conj Hraised (Hkey "issue_details" eq_refl))
    end).
Defined.

(** The envelope of a full run says success, and the run had all four
    stages. *)
Lemma success_only_after_all_stages_witness :
  ∃ resp,
    Emit resp
    ∈ scripted_steps
        {[ "issue_details" := VStr "crash on empty input";
           "analysis" := VStr "<analysis><file>a.py</file></analysis>";
           "pr_output" := VStr "https://github.com/o/r/pull/8" ]} ∅
        (Main.initial_state "https://github.com/o/r/issues/7")
    ∧ success resp = true
    ∧ truthy (pull_request resp) = true
    ∧ error resp = VNone.
Proof.
  with_steps ltac:(fun o f st v =>
    match v with
    | [_; _; _; _; Emit ?resp] =>
        exists resp;
        assert (Emit resp ∈ scripted_steps o f st) as Hin
          by (vm_compute; do 4 right; left);
        destruct (success_only_after_all_stages command_tools ["grep_search"]
                    (scripted o f) st resp Hin eq_refl)
          as (? & ? & ? & ? & ? & _ & _ & _ & _ & Hpr & Herr);
        exact (conj Hin (conj eq_refl (conj Hpr Herr)))
    end).
Defined.

(** After an implementation stage that stores nothing and does not raise,
    the pull-request stage is invoked on the state it left. *)
Lemma implement_unchecked_witness :
  ∃ pre r3 post post',
    scripted_steps
      {[ "issue_details" := VStr "crash on empty input";
         "analysis" := VStr "<analysis><file>a.py</file></analysis>" ]} ∅
      (Main.initial_state "https://github.com/o/r/issues/7")
    = pre ++ Stage (implement_agent command_tools ["grep_search"]) r3 :: post
    ∧ post = Stage (pr_agent command_tools)
               (scripted
                  {[ "issue_details" := VStr "crash on empty input";
                     "analysis" := VStr "<analysis><file>a.py</file></analysis>" ]}
                  ∅ (pr_agent command_tools) (run_state r3))
             :: post'.
Proof.
  with_steps ltac:(fun o f st v =>
    match v with
    | [?s1; ?s2; Stage _ ?r3; ?s4; ?e] =>
        exists [s1; s2], r3, [s4; e];
        assert (scripted_steps o f st
                = [s1; s2]
                  ++ Stage (implement_agent command_tools ["grep_search"]) r3
                  :: [s4; e]) as Hsteps by compute_eq;
        destruct (implement_unchecked command_tools ["grep_search"]
                    (scripted o f) st [s1; s2] r3 [s4; e] Hsteps eq_refl)
          as [_ [post' Hpost]];
        exists post'; exact (conj Hsteps Hpost)
    end).
Defined.

End Runs.

(** ** Lines of a [.env] file *)
Section Lines.
Import PyStr Main.

(** C10 as stated fails: an indented comment that holds "=" is not blank,
    does not start with "#" and holds "=", and it is skipped, nothing being
    assigned; and a line with an empty name, or with a NUL in it, is not
    assigned but ends the loader with an exception. *)
Lemma C10_counterexample :
  strip " #DEBUG=1" ≠ ""
  ∧ startswith " #DEBUG=1" "#" = false
  ∧ contains "=" " #DEBUG=1" = true
  ∧ load_line ∅ " #DEBUG=1" = inr ∅
  ∧ (∃ e, load_line ∅ "=token" = inl e)
  ∧ (∃ e, load_line ∅ ("KEY=a" +:+ NUL +:+ "b") = inl e).
Proof.
  split_and!; [discriminate | reflexivity.. | |]; by eexists.
Qed.

(** A file read in order, a later assignment replacing an earlier one. *)
Example load_lines_sample :
  load_lines {[ "HOME" := "/root" ]}
    ["# keys
"; "
"; "GOOGLE_API_KEY=abc
"; "export
"; "HOME=/tmp
"; "GOOGLE_API_KEY = x=y"]
  = inr {[ "HOME" := "/tmp"; "GOOGLE_API_KEY" := "abc";
           "GOOGLE_API_KEY " := " x=y" ]}.
Proof. vm_compute. reflexivity. Qed.

(** C10, at an indented assignment whose value holds "=" and whose name is
    already set, and at a comment. *)
Lemma C10_env_loader_witness :
  load_line {[ "API_KEY" := "old" ]} "# API_KEY=commented"
  = inr {[ "API_KEY" := "old" ]}
  ∧ load_line {[ "API_KEY" := "old" ]} "  API_KEY=abc=def
" = inr (<["API_KEY" := "abc=def"]> {[ "API_KEY" := "old" ]})
  ∧ (<["API_KEY" := "abc=def"]> ({[ "API_KEY" := "old" ]} : Environ))
      !! "API_KEY" = Some "abc=def".
Proof.
  split.
  - apply (proj1 (C10_env_loader {[ "API_KEY" := "old" ]} "# API_KEY=commented")).
    right; left. by exists " API_KEY=commented".
  - apply (proj2 (C10_env_loader {[ "API_KEY" := "old" ]} "  API_KEY=abc=def
") "API_KEY" "abc=def").
    + reflexivity.
    + apply contains_false. reflexivity.
    + apply startswith_false. reflexivity.
    + discriminate.
    + apply contains_false. reflexivity.
Defined.

(** *** Files for the further properties *)

(** Two files loaded one after the other. *)
Lemma load_lines_app_witness :
  load_lines {[ "HOME" := "/root" ]} (["A=1"; "# c"] ++ ["B=2"; "A=3"])
  = load_lines {[ "A" := "1"; "HOME" := "/root" ]} ["B=2"; "A=3"].
Proof.
  apply (load_lines_app {[ "HOME" := "/root" ]} ["A=1"; "# c"] ["B=2"; "A=3"]).
  vm_compute. reflexivity.
Defined.

(** A file that sets HOME again and another variable: HOME stays set. *)
Lemma load_lines_keeps_variables_witness :
  is_Some (({[ "HOME" := "/tmp"; "B" := "2" ]} : Environ) !! "HOME").
Proof.
  apply (load_lines_keeps_variables {[ "HOME" := "/root" ]}
           ["B=2"; "HOME=/tmp"] _ "HOME").
  - vm_compute. reflexivity.
  - vm_compute. eauto.
Defined.

(** A file that names HOMEDIR and H, not HOME. *)
Lemma load_lines_untouched_witness :
  ({[ "HOME" := "/root"; "HOMEDIR" := "/x"; "H" := "y" ]} : Environ) !! "HOME"
  = ({[ "HOME" := "/root" ]} : Environ) !! "HOME".
Proof.
  apply (load_lines_untouched {[ "HOME" := "/root" ]}
           ["HOMEDIR=/x"; "  H=y  "; "# HOME=/z"] _ "HOME").
  - vm_compute. reflexivity.
  - intros line Hin.
    repeat (apply elem_of_cons in Hin as [->|Hin]);
      [apply startswith_false; vm_compute; reflexivity..|].
    by apply elem_of_nil in Hin.
Defined.

(** A file that sets A three times, with a comment after the last. *)
Lemma last_assignment_wins_witness :
  ({[ "A" := "3" ]} : Environ) !! "A" = Some "3".
Proof.
  apply (last_assignment_wins {[ "A" := "0" ]} ["A=1"; "A=2"] " A=3
" ["# A=4"] _ "A" "3").
  - vm_compute. reflexivity.
  - vm_compute. reflexivity.
  - apply contains_false. vm_compute. reflexivity.
  - apply startswith_false. vm_compute. reflexivity.
  - intros l Hin. apply elem_of_cons in Hin as [->|Hin].
    + apply startswith_false. vm_compute. reflexivity.
    + by apply elem_of_nil in Hin.
Defined.

(** A file loaded into an environment and into the empty one. *)
Lemma load_lines_env_independent_witness :
  ∃ other',
    load_lines ∅ ["A=1"; "B=x=y"] = inr other'
    ∧ ∀ name,
        other' !! name
        = ({[ "A" := "1"; "B" := "x=y"; "HOME" := "/root" ]} : Environ) !! name
        ∨ (other' !! name = (∅ : Environ) !! name
           ∧ ({[ "A" := "1"; "B" := "x=y"; "HOME" := "/root" ]} : Environ) !! name
             = ({[ "A" := "0"; "HOME" := "/root" ]} : Environ) !! name).
Proof.
  apply (load_lines_env_independent {[ "A" := "0"; "HOME" := "/root" ]}
           ["A=1"; "B=x=y"]).
  vm_compute. reflexivity.
Defined.

(** A file loaded twice. *)
Lemma load_lines_idempotent_witness :
  load_lines {[ "A" := "2"; "B" := "1" ]} ["A=1"; "B=1"; "A=2"]
  = inr {[ "A" := "2"; "B" := "1" ]}.
Proof.
  apply (load_lines_idempotent {[ "A" := "0" ]} ["A=1"; "B=1"; "A=2"]).
  vm_compute. reflexivity.
Defined.

(** A comment that holds "=". *)
Lemma skips_raw_line_witness :
  load_line {[ "A" := "1" ]} "#A=2
" = inr {[ "A" := "1" ]}.
Proof.
  apply (skips_raw_line {[ "A" := "1" ]}). right; left. by eexists.
Defined.

End Lines.
